(** * NYC Citi Bike dashboard: the loader, the season lookup and the
      seasonal station aggregation

    A shallow embedding of [dashboard.py] and [dashboard_final.py].  The
    two scripts read CSV files with pandas, attach a season label to every
    trip, and (second script, page "2. Station Popularity Analysis") filter
    the trips by the selected seasons, keep the 20 busiest start stations and
    count the trips per (station, season).

    Data frames are lists of rows, a column is the list of its cells, a cell
    that pandas holds as NaN / NaT is [None].  An operation that raises in
    Python returns [inl] of the exception. *)

From Stdlib Require Import ZArith List String Ascii Bool Arith Lia.
From Stdlib Require Import Permutation Sorted OrderedTypeEx QArith_base.
Import ListNotations.

Local Open Scope list_scope.
Local Open Scope nat_scope.

(** ** Exceptions and results *)

Inductive exn : Type :=
| FileNotFoundError (filename : string)
| KeyError (key : string)
| DateParseError (position : nat)
| OutOfBoundsDatetime (position : nat)
| TypeError (msg : string).

Definition result (A : Type) : Type := (exn + A)%type.

Definition ret {A : Type} (a : A) : result A := inr a.

Definition bind {A B : Type} (m : result A) (k : A -> result B) : result B :=
  match m with
  | inl e => inl e
  | inr a => k a
  end.

Notation "x <- m ;; k" := (bind m (fun x => k))
  (at level 61, m at next level, right associativity).

(** ** Rows of the files and of the data frames *)

Record Timestamp : Type := mkTimestamp {
  ts_year : Z;
  ts_month : Z;
  ts_day : Z;
  ts_seconds : Z
}.

(** A cell of a date column as the file has it: empty; a text in the
    date format of the column, given by the fields it spells (the month of
    "2022-13-01" is 13); or any other text, which [pd.to_datetime]
    rejects: one that spells no date, or not in the format of the
    column. *)
Inductive date_cell : Type :=
| EmptyCell
| DateCell (fields : Timestamp)
| TextCell (text : string).

(** A line of [citi_bike_2022_small_sample.csv], with the two columns the
    scripts read.  The station cell holds a name: a line whose station
    cell is empty, which pandas reads as NaN, is not modelled. *)
Record TripLine : Type := mkTripLine {
  line_started_at : date_cell;
  line_start_station_name : string
}.

(** A line of [citi_bike_daily_summary_2022.csv]. *)
Record DailyLine : Type := mkDailyLine {
  line_date : date_cell;
  line_trip_count : Z;
  line_avgTemp : Q
}.

(** A row of [citi_bike_2022_small_sample.csv], with the two columns the
    scripts read.  [csv_started_at] is the cell as [pd.to_datetime] returns
    it: [None] is [NaT]. *)
Record TripRow : Type := mkTripRow {
  csv_started_at : option Timestamp;
  csv_start_station_name : string
}.

(** A row of [citi_bike_top_1000_routes.csv]. *)
Record RouteRow : Type := mkRouteRow {
  route_start_station_name : string;
  route_trip_count : Z
}.

(** A row of [df_daily]: the line of the file with its date as
    [pd.to_datetime] returns it. *)
Record DailyRow : Type := mkDailyRow {
  daily_date : option Timestamp;
  daily_trip_count : Z;
  avgTemp : Q
}.

(** A row of [df] once [load_data] has added the derived columns. *)
Record Trip : Type := mkTrip {
  started_at : option Timestamp;
  date : option (Z * Z * Z);
  month : option Z;
  season : option string;
  start_station_name : string
}.

(** A row of [df_stacked_data]: the columns [start_station_name], [season]
    and [trip_count]. *)
Record StationAggregate : Type := mkStationAggregate {
  agg_station_name : string;
  agg_season : string;
  trip_count : nat
}.

(** ** The file system *)

Inductive file : Type :=
| TripCsv (lines : list TripLine)
| RoutesCsv (rows : list RouteRow)
| DailyCsv (lines : list DailyLine)
| Html (text : string).

Definition filesystem : Type := string -> option file.

(** ** The pandas operations the scripts call *)

Module Pandas.

(** [pd.read_csv(path)]: opening a missing file raises
    [FileNotFoundError], which carries the file name. *)
Definition read_csv (fs : filesystem) (path : string) : result file :=
  match fs path with
  | None => inl (FileNotFoundError path)
  | Some f => inr f
  end.

(** Column access on the table a file holds: a table without the column
    raises [KeyError]. *)
Definition trip_rows (f : file) : result (list TripLine) :=
  match f with
  | TripCsv lines => inr lines
  | _ => inl (KeyError "started_at")
  end.

Definition route_rows (f : file) : result (list RouteRow) :=
  match f with
  | RoutesCsv rows => inr rows
  | _ => inl (KeyError "start_station_name")
  end.

Definition daily_rows (f : file) : result (list DailyLine) :=
  match f with
  | DailyCsv lines => inr lines
  | _ => inl (KeyError "date")
  end.

(** The dates [pd.to_datetime] accepts: a month in 1..12, a day of that
    month, a time of the day, all within the bounds of a nanosecond
    [Timestamp] (1677-09-21 00:12:43.145 to 2262-04-11 23:47:16.854). *)
Definition is_leap (y : Z) : bool :=
  (Z.eqb (y mod 4) 0 && negb (Z.eqb (y mod 100) 0)) || Z.eqb (y mod 400) 0.

Definition days_in_month (y m : Z) : Z :=
  if Z.eqb m 2 then (if is_leap y then 29 else 28)
  else if Z.eqb m 4 || Z.eqb m 6 || Z.eqb m 9 || Z.eqb m 11 then 30
  else 31.

Definition well_formed (t : Timestamp) : bool :=
  Z.leb 1 (ts_month t) && Z.leb (ts_month t) 12
  && Z.leb 1 (ts_day t) && Z.leb (ts_day t) (days_in_month (ts_year t) (ts_month t))
  && Z.leb 0 (ts_seconds t) && Z.ltb (ts_seconds t) 86400.

Definition stamp_leb (a b : Timestamp) : bool :=
  match Z.compare (ts_year a) (ts_year b) with
  | Lt => true
  | Gt => false
  | Eq =>
      match Z.compare (ts_month a) (ts_month b) with
      | Lt => true
      | Gt => false
      | Eq =>
          match Z.compare (ts_day a) (ts_day b) with
          | Lt => true
          | Gt => false
          | Eq => Z.leb (ts_seconds a) (ts_seconds b)
          end
      end
  end.

Definition in_bounds (t : Timestamp) : bool :=
  stamp_leb (mkTimestamp 1677 9 21 764) t
  && stamp_leb t (mkTimestamp 2262 4 11 85636).

(** [pd.to_datetime] on one cell, at a position of the column: an empty
    cell is [NaT]; a text that is no date, or whose fields are no date,
    raises. *)
Definition parse_cell (position : nat) (c : date_cell)
  : result (option Timestamp) :=
  match c with
  | EmptyCell => inr None
  | DateCell t =>
      if well_formed t
      then if in_bounds t then inr (Some t)
           else inl (OutOfBoundsDatetime position)
      else inl (DateParseError position)
  | TextCell _ => inl (DateParseError position)
  end.

Fixpoint to_datetime_at (position : nat) (cells : list date_cell)
  : result (list (option Timestamp)) :=
  match cells with
  | [] => inr []
  | c :: rest =>
      match parse_cell position c with
      | inl e => inl e
      | inr t =>
          match to_datetime_at (S position) rest with
          | inl e => inl e
          | inr ts => inr (t :: ts)
          end
      end
  end.

(** [pd.to_datetime(column)]: it raises at the first cell it rejects. *)
Definition to_datetime (cells : list date_cell)
  : result (list (option Timestamp)) :=
  to_datetime_at 0 cells.

(** [df[column] = values]: the parsed dates put back in their rows. *)
Definition with_started_at (lines : list TripLine)
  (stamps : list (option Timestamp)) : list TripRow :=
  map (fun p => {| csv_started_at := snd p;
                   csv_start_station_name := line_start_station_name (fst p) |})
      (combine lines stamps).

Definition with_date (lines : list DailyLine)
  (dates : list (option Timestamp)) : list DailyRow :=
  map (fun p => {| daily_date := snd p;
                   daily_trip_count := line_trip_count (fst p);
                   avgTemp := line_avgTemp (fst p) |})
      (combine lines dates).

(** [.dt.date] and [.dt.month] of one cell. *)
Definition dt_date (t : option Timestamp) : option (Z * Z * Z) :=
  option_map (fun s => (ts_year s, ts_month s, ts_day s)) t.

Definition dt_month (t : option Timestamp) : option Z :=
  option_map ts_month t.

(** A dict literal is the list of its items; [dict_get] is the lookup. *)
Fixpoint dict_get (d : list (Z * string)) (k : Z) : option string :=
  match d with
  | [] => None
  | (k', v) :: rest => if Z.eqb k k' then Some v else dict_get rest k
  end.

(** [Series.map(d)] on one cell: a key that is not in the dict, or a
    missing cell, gives NaN; nothing is raised. *)
Definition map_dict (d : list (Z * string)) (cell : option Z) : option string :=
  match cell with
  | Some k => dict_get d k
  | None => None
  end.

(** [Series.isin(values)] on one cell: NaN is in no list of strings. *)
Definition isin (cell : option string) (values : list string) : bool :=
  match cell with
  | Some s => existsb (String.eqb s) values
  | None => false
  end.

Section Lists.
Context {A : Type} (eqb : A -> A -> bool).

(** The distinct values of a column in the order of first appearance
    (the order in which the hash table of [value_counts] and of
    [groupby] meets them). *)
Fixpoint unique (l : list A) : list A :=
  match l with
  | [] => []
  | x :: rest => x :: filter (fun y => negb (eqb x y)) (unique rest)
  end.

Definition count (x : A) (l : list A) : nat :=
  List.length (filter (eqb x) l).

(** Position of the first appearance, [length l] when there is none. *)
Fixpoint index (x : A) (l : list A) : nat :=
  match l with
  | [] => 0
  | y :: rest => if eqb x y then 0 else S (index x rest)
  end.
End Lists.

Section Sorting.
Context {A : Type} (leb : A -> A -> bool).

(** [sort_values], as a stable sort: rows that compare equal keep the
    order they had.  pandas sorts a descending column by reversing,
    sorting in ascending order and reversing again, so that a stable sort
    keeps that order; NumPy's default kind is an insertion sort, which is
    stable, on arrays of at most 16 elements, and pandas documents no
    stability beyond that.  The order of equal counts in [value_counts]
    rests on this reading. *)
Fixpoint insert (x : A) (l : list A) : list A :=
  match l with
  | [] => [x]
  | y :: rest => if leb x y then x :: y :: rest else y :: insert x rest
  end.

Fixpoint sort_values (l : list A) : list A :=
  match l with
  | [] => []
  | x :: rest => insert x (sort_values rest)
  end.
End Sorting.

(** Descending order of the counts, for [value_counts] and [nlargest]. *)
Definition count_geb {K : Type} (a b : K * nat) : bool :=
  Nat.leb (snd b) (snd a).

Definition sum_geb {K : Type} (a b : K * Z) : bool :=
  Z.leb (snd b) (snd a).

(** [Series.value_counts()]: one entry per distinct value, met in the
    order of first appearance, then sorted by descending count. *)
Definition value_counts (col : list string) : list (string * nat) :=
  sort_values count_geb
    (map (fun k => (k, count String.eqb k col)) (unique String.eqb col)).

(** [Series.nlargest(n)] with the default [keep='first']: the [n]
    entries with the largest values, in descending order, earlier entries
    first among equal values. *)
Definition nlargest {K : Type} (n : nat) (s : list (K * nat)) : list (K * nat) :=
  firstn n (sort_values count_geb s).

Definition nlargestZ {K : Type} (n : nat) (s : list (K * Z)) : list (K * Z) :=
  firstn n (sort_values sum_geb s).

(** Order of the group keys of [groupby]: Python's order on strings and
    on tuples of strings. *)
Definition key_leb (a b : string * string) : bool :=
  match String.compare (fst a) (fst b) with
  | Lt => true
  | Eq => String.leb (snd a) (snd b)
  | Gt => false
  end.

Definition key_eqb (a b : string * string) : bool :=
  String.eqb (fst a) (fst b) && String.eqb (snd a) (snd b).

(** Group keys of a [groupby] with the default [sort=True] and
    [dropna=True]: rows with a NaN key are left out, the keys met are
    sorted. *)
Fixpoint dropna {K : Type} (l : list (option K)) : list K :=
  match l with
  | [] => []
  | Some k :: rest => k :: dropna rest
  | None :: rest => dropna rest
  end.

Definition group_keys (keys : list (option (string * string)))
  : list (string * string) :=
  sort_values key_leb (unique key_eqb (dropna keys)).

(** [groupby([k1, k2]).size()]: the number of rows of each group. *)
Definition groupby_size (keys : list (option (string * string)))
  : list ((string * string) * nat) :=
  map (fun k => (k, count key_eqb k (dropna keys))) (group_keys keys).

(** An [int64] result: the value modulo 2^64, in -2^63 .. 2^63 - 1. *)
Definition wrap64 (z : Z) : Z :=
  ((z + 2 ^ 63) mod 2 ^ 64 - 2 ^ 63)%Z.

(** [groupby(k)[v].sum()] on an [int64] column: the sums wrap. *)
Definition sum_where (k : string) (rows : list (string * Z)) : Z :=
  wrap64
    (fold_right Z.add 0%Z
       (map snd (filter (fun r => String.eqb k (fst r)) rows))).

Definition groupby_sum (rows : list (string * Z)) : list (string * Z) :=
  map (fun k => (k, sum_where k rows))
      (sort_values String.leb (unique String.eqb (map fst rows))).

End Pandas.

(** ** [dashboard_final.py] *)

Module DashboardFinal.
Import Pandas.
Local Open Scope string_scope.

Definition trips_path : string := "citi_bike_2022_small_sample.csv".
Definition daily_path : string := "citi_bike_daily_summary_2022.csv".
Definition map_path : string := "nyc_top_1000_bike_routes.html".

(** The dict [seasons] of [load_data]. *)
Definition seasons : list (Z * string) :=
  [ (12%Z, "Winter"); (1%Z, "Winter"); (2%Z, "Winter");
    (3%Z, "Spring"); (4%Z, "Spring"); (5%Z, "Spring");
    (6%Z, "Summer"); (7%Z, "Summer"); (8%Z, "Summer");
    (9%Z, "Fall"); (10%Z, "Fall"); (11%Z, "Fall") ].

(** The columns [date], [month] and [season] that [load_data] adds to a
    row. *)
Definition add_columns (r : TripRow) : Trip :=
  let m := dt_month (csv_started_at r) in
  {| started_at := csv_started_at r;
     date := dt_date (csv_started_at r);
     month := m;
     season := map_dict seasons m;
     start_station_name := csv_start_station_name r |}.

Definition load_data (fs : filesystem) : result (list Trip * list DailyRow) :=
  f <- read_csv fs trips_path ;;
  lines <- trip_rows f ;;
  stamps <- to_datetime (map line_started_at lines) ;;
  let df := map add_columns (with_started_at lines stamps) in
  g <- read_csv fs daily_path ;;
  daily_lines <- daily_rows g ;;
  dates <- to_datetime (map line_date daily_lines) ;;
  ret (df, with_date daily_lines dates).

(** *** Page "2. Station Popularity Analysis" *)

Definition season_options : list string :=
  ["Winter"; "Spring"; "Summer"; "Fall"].

Definition df_filtered (df : list Trip) (season_filter : list string)
  : list Trip :=
  filter (fun r => isin (season r) season_filter) df.

(** [value_counts().nlargest(n).index]; the script has [n = 20]. *)
Definition top_station_names (n : nat) (filtered : list Trip) : list string :=
  map fst (nlargest n (value_counts (map start_station_name filtered))).

Definition df_top (filtered : list Trip) (names : list string) : list Trip :=
  filter (fun r => isin (Some (start_station_name r)) names) filtered.

Definition group_key (r : Trip) : option (string * string) :=
  option_map (fun s => (start_station_name r, s)) (season r).

(** [groupby(['start_station_name', 'season']).size()
     .reset_index(name='trip_count')]. *)
Definition stacked_rows (top : list Trip) : list StationAggregate :=
  map (fun kc => {| agg_station_name := fst (fst kc);
                    agg_season := snd (fst kc);
                    trip_count := snd kc |})
      (groupby_size (map group_key top)).

Definition df_stacked_data (n : nat) (df : list Trip)
  (season_filter : list string) : list StationAggregate :=
  let filtered := df_filtered df season_filter in
  stacked_rows (df_top filtered (top_station_names n filtered)).

(** One [go.Bar] trace of the stacked chart. *)
Record Bar : Type := mkBar {
  bar_x : list nat;
  bar_y : list string;
  bar_name : string
}.

Definition season_trace (stacked : list StationAggregate) (s : string) : Bar :=
  let df_season := filter (fun a => String.eqb (agg_season a) s) stacked in
  {| bar_x := map trip_count df_season;
     bar_y := map agg_station_name df_season;
     bar_name := s |}.

(** The loop over [season_options] that adds the traces. *)
Definition fig_stacked_bar (stacked : list StationAggregate)
  (season_filter : list string) : list Bar :=
  map (season_trace stacked)
      (filter (fun s => existsb (String.eqb s) season_filter) season_options).

(** What the page shows: the warning, or the metric and the chart. *)
Inductive page2 : Type :=
| Warning (msg : string)
| Chart (total_rides : nat) (stacked : list StationAggregate)
        (traces : list Bar).

Definition station_popularity_page_n (n : nat) (df : list Trip)
  (season_filter : list string) : page2 :=
  match season_filter with
  | [] => Warning "Please select at least one season in the sidebar."
  | _ :: _ =>
      let stacked := df_stacked_data n df season_filter in
      Chart (List.length (df_filtered df season_filter))
            stacked
            (fig_stacked_bar stacked season_filter)
  end.

Definition station_popularity_page : list Trip -> list string -> page2 :=
  station_popularity_page_n 20.

(** The (station, season, count) rows a page holds. *)
Definition emitted (p : page2) : list StationAggregate :=
  match p with
  | Warning _ => []
  | Chart _ stacked _ => stacked
  end.

Definition emitted_traces (p : page2) : list Bar :=
  match p with
  | Warning _ => []
  | Chart _ _ traces => traces
  end.

(** *** Page "4. Geospatial Route Analysis" *)

Inductive page4 : Type :=
| MapHtml (html_data : string)
| StError (msg : string).

Definition map_missing_msg : string :=
  "Map file ('nyc_top_1000_bike_routes.html') not found. Please ensure it is in the same directory as the script.".

Definition open_read (fs : filesystem) (path : string) : result string :=
  match fs path with
  | None => inl (FileNotFoundError path)
  | Some (Html text) => inr text
  | Some _ => inr EmptyString
  end.

Definition route_map_page (fs : filesystem) : result page4 :=
  match open_read fs map_path with
  | inr html_data => inr (MapHtml html_data)
  | inl (FileNotFoundError _) => inr (StError map_missing_msg)
  | inl e => inl e
  end.

End DashboardFinal.

(** ** [dashboard.py] *)

Module Dashboard.
Import Pandas.
Local Open Scope string_scope.

Definition routes_path : string := "citi_bike_top_1000_routes.csv".
Definition daily_path : string := "citi_bike_daily_summary_2022.csv".

(** On a file with no row the columns have no number type and
    [nlargest] raises [TypeError]. *)
Definition nlargest_type_error : string :=
  "Cannot use method 'nlargest' with dtype object".

Definition load_data (fs : filesystem)
  : result (list (string * Z) * list DailyRow) :=
  f <- read_csv fs routes_path ;;
  df_top_1000 <- route_rows f ;;
  df_top_20_stations <-
    match df_top_1000 with
    | [] => inl (TypeError nlargest_type_error)
    | _ :: _ =>
        ret (nlargestZ 20
               (groupby_sum
                  (map (fun r => (route_start_station_name r,
                                  route_trip_count r))
                       df_top_1000)))
    end ;;
  g <- read_csv fs daily_path ;;
  daily_lines <- daily_rows g ;;
  dates <- to_datetime (map line_date daily_lines) ;;
  ret (df_top_20_stations, with_date daily_lines dates).

End Dashboard.

(** ** Measures and orders used in the statements *)

Module Measures.
Import Pandas DashboardFinal.
Local Open Scope string_scope.

(** Number of trips of a frame that start at station [s]. *)
Definition trips_at (s : string) (l : list Trip) : nat :=
  List.length (filter (fun r => String.eqb (start_station_name r) s) l).

(** Number of trips of a frame that start at [s] in season [se]. *)
Definition in_season (se : string) (r : Trip) : bool :=
  match season r with
  | Some x => String.eqb x se
  | None => false
  end.

Definition trips_in (s se : string) (l : list Trip) : nat :=
  List.length
    (filter (fun r => String.eqb (start_station_name r) s && in_season se r) l).


(** Sum of the [trip_count] column over the rows of station [s]. *)
Definition station_total (s : string) (aggs : list StationAggregate) : nat :=
  list_sum
    (map trip_count
         (filter (fun a => String.eqb s (agg_station_name a)) aggs)).

Definition agg_key (a : StationAggregate) : string * string :=
  (agg_station_name a, agg_season a).

(** The month of a row is one of 1..12. *)
Definition month_in_range (m : option Z) : Prop :=
  exists z, m = Some z /\ (1 <= z <= 12)%Z.

(** [x] is put before [y] by a sort with [leb] that keeps equal rows in
    the order [R] they had. *)
Definition stable_before {A : Type} (leb : A -> A -> bool)
  (R : A -> A -> Prop) (x y : A) : Prop :=
  leb x y = true /\ (leb y x = true -> R x y).



(** Strict order of the group keys: by station name, then by season
    label, both in the order of strings. *)
Definition key_lt (a b : string * string) : Prop :=
  String.compare (fst a) (fst b) = Lt \/
  (fst a = fst b /\ String.compare (snd a) (snd b) = Lt).

(** Position of a label in the display order Winter, Spring, Summer,
    Fall. *)
Definition season_rank (s : string) : nat :=
  index String.eqb s season_options.

(** The order of the rows that the specification words: stations by
    descending total of filtered trips, and the rows of one station by
    the display order of the seasons. *)
Definition spec_order (filtered : list Trip) (a b : StationAggregate) : Prop :=
  if String.eqb (agg_station_name a) (agg_station_name b)
  then season_rank (agg_season a) <= season_rank (agg_season b)
  else trips_at (agg_station_name b) filtered
       <= trips_at (agg_station_name a) filtered.

End Measures.

(** ** Sample inputs *)

Module Samples.
Import Pandas DashboardFinal.
Local Open Scope string_scope.

Definition on_day (y m d : Z) (station : string) : TripRow :=
  {| csv_started_at := Some (mkTimestamp y m d 0);
     csv_start_station_name := station |}.

Definition three_rows : list TripRow :=
  [on_day 2022 1 5 "A"; on_day 2022 1 6 "A"; on_day 2022 7 1 "B"].

Definition three_trips : list Trip := map add_columns three_rows.

(** One winter trip from "A", a fall and a winter trip from "B". *)
Definition unordered_rows : list TripRow :=
  [on_day 2022 1 5 "A"; on_day 2022 10 2 "B"; on_day 2022 12 24 "B"].

Definition unordered_trips : list Trip := map add_columns unordered_rows.

(** A row whose month is 13 and a row without a timestamp. *)
Definition month13_row : TripRow := on_day 2022 13 1 "A".

Definition nat_row : TripRow :=
  {| csv_started_at := None; csv_start_station_name := "A" |}.

Definition no_files : filesystem := fun _ => None.

(** Lines of a trip file: a date at midnight, an empty cell, a month
    13. *)
Definition line_on (y m d : Z) (station : string) : TripLine :=
  {| line_started_at := DateCell (mkTimestamp y m d 0);
     line_start_station_name := station |}.

Definition blank_line (station : string) : TripLine :=
  {| line_started_at := EmptyCell; line_start_station_name := station |}.

Definition three_lines : list TripLine :=
  [line_on 2022 1 5 "A"; line_on 2022 1 6 "A"; line_on 2022 7 1 "B"].

Definition month13_line : TripLine := line_on 2022 13 1 "A".

Definition files_with (lines : list TripLine) : filesystem :=
  fun path =>
    if String.eqb path trips_path then Some (TripCsv lines)
    else if String.eqb path daily_path then Some (DailyCsv [])
    else None.

Definition only_trips (lines : list TripLine) : filesystem :=
  fun path =>
    if String.eqb path trips_path then Some (TripCsv lines) else None.



(** A trip from "A" without a timestamp, then a January trip from "A". *)
Definition no_timestamp_rows : list TripRow :=
  [nat_row; on_day 2022 1 5 "A"].

Definition no_timestamp_trips : list Trip := map add_columns no_timestamp_rows.

Definition only_routes (rows : list RouteRow) : filesystem :=
  fun path =>
    if String.eqb path Dashboard.routes_path then Some (RoutesCsv rows)
    else None.

End Samples.

(** ** Further measures and sample inputs *)

Module Totals.
Import Pandas DashboardFinal.
Local Open Scope string_scope.




(** The month of a row of the file is one of 1..12. *)
Definition month_ok (r : TripRow) : bool :=
  match csv_started_at r with
  | Some t => Z.leb 1 (ts_month t) && Z.leb (ts_month t) 12
  | None => false
  end.

(** What a line of the file becomes in the frame. *)
Definition loaded_from (l : TripLine) (t : Trip) : Prop :=
  start_station_name t = line_start_station_name l /\
  match line_started_at l with
  | EmptyCell => month t = None /\ season t = None
  | DateCell x =>
      month t = Some (ts_month x) /\ (1 <= ts_month x <= 12)%Z /\
      exists s, season t = Some s /\ In s season_options
  | TextCell _ => False
  end.

Definition routes_sample : list RouteRow :=
  [ mkRouteRow "B" 2; mkRouteRow "A" 5; mkRouteRow "B" 3; mkRouteRow "C" 1 ].

Definition routes_files : filesystem :=
  fun path =>
    if String.eqb path Dashboard.routes_path then Some (RoutesCsv routes_sample)
    else if String.eqb path Dashboard.daily_path then Some (DailyCsv [])
    else None.

End Totals.

(** ** Facts about sorted lists *)

Section SortedFacts.
Context {A : Type}.

Lemma StronglySorted_filter (R : A -> A -> Prop) (p : A -> bool) :
  forall l, StronglySorted R l -> StronglySorted R (filter p l).
Proof.
  induction 1 as [|a l Hl IH Ha]; simpl; [constructor|].
  destruct (p a); trivial.
  constructor; trivial.
  rewrite Forall_forall in *. intros x Hx.
  apply filter_In in Hx. now apply Ha.
Qed.

Lemma StronglySorted_weaken (R R' : A -> A -> Prop) :
  forall l, StronglySorted R l ->
  (forall a b, In a l -> In b l -> R a b -> R' a b) ->
  StronglySorted R' l.
Proof.
  induction 1 as [|a l Hl IH Ha]; intro H; constructor.
  - apply IH. intros x y Hx Hy. apply H; now right.
  - rewrite Forall_forall in *. intros x Hx.
    apply H; [now left|now right|now apply Ha].
Qed.


Lemma StronglySorted_map {B : Type} (f : A -> B) (R : B -> B -> Prop) :
  forall l, StronglySorted (fun a b => R (f a) (f b)) l ->
  StronglySorted R (map f l).
Proof.
  induction 1 as [|a l Hl IH Ha]; simpl; constructor; trivial.
  rewrite Forall_forall in *. intros y Hy.
  apply in_map_iff in Hy. destruct Hy as (x & <- & Hx). now apply Ha.
Qed.

Lemma NoDup_StronglySorted_neq :
  forall l : list A, NoDup l -> StronglySorted (fun a b => a <> b) l.
Proof.
  induction 1 as [|a l Ha Hl IH]; constructor; trivial.
  apply Forall_forall. intros x Hx E. subst. contradiction.
Qed.

End SortedFacts.

(** ** Facts about the list operations *)

Section ListFacts.
Context {A : Type} (eqb : A -> A -> bool).
Hypothesis eqb_spec : forall x y, eqb x y = true <-> x = y.

Import Pandas.

Lemma eqb_refl' : forall x, eqb x x = true.
Proof. intro x. now apply eqb_spec. Qed.

Lemma eqb_neq' : forall x y, eqb x y = false <-> x <> y.
Proof.
  intros x y. split.
  - intros H E. apply eqb_spec in E. congruence.
  - intro H. destruct (eqb x y) eqn:E; trivial.
    apply eqb_spec in E. contradiction.
Qed.

Lemma In_unique : forall l x, In x (unique eqb l) <-> In x l.
Proof.
  induction l as [|y l IH]; intro x; simpl; [tauto|].
  rewrite filter_In, IH. split.
  - intros [H|[H _]]; auto.
  - intros [H|H]; auto.
    destruct (eqb y x) eqn:E.
    + left. now apply eqb_spec.
    + right. split; auto.
Qed.

Lemma NoDup_unique : forall l, NoDup (unique eqb l).
Proof.
  induction l as [|y l IH]; simpl; constructor.
  - rewrite filter_In. intros [_ H]. now rewrite eqb_refl' in H.
  - now apply NoDup_filter.
Qed.

Lemma index_lt_length : forall l x, In x l -> index eqb x l < List.length l.
Proof.
  induction l as [|y l IH]; intros x H; simpl in *; [contradiction|].
  destruct (eqb x y) eqn:E; [lia|].
  destruct H as [H|H].
  - subst. now rewrite eqb_refl' in E.
  - specialize (IH _ H). lia.
Qed.


(** Counting the rows of every group and adding up the groups that
    pass a test counts the rows that pass it. *)
Lemma sum_indicator (P : A -> bool) (y : A) :
  forall ks, NoDup ks -> (P y = true -> In y ks) ->
  list_sum (map (fun k => if eqb k y then 1 else 0) (filter P ks))
  = if P y then 1 else 0.
Proof.
  induction ks as [|k ks IH]; intros Hnd Hin; simpl.
  - destruct (P y) eqn:E; trivial. now specialize (Hin eq_refl).
  - inversion Hnd as [|? ? Hk Hks]; subst.
    destruct (eqb k y) eqn:E.
    + apply eqb_spec in E. subst k.
      assert (Z : forall l, ~ In y l ->
                list_sum (map (fun k => if eqb k y then 1 else 0) (filter P l)) = 0).
      { induction l as [|z l IHl]; intro Hz; simpl; trivial.
        assert (Ez : eqb z y = false)
          by (apply eqb_neq'; intro; subst; apply Hz; now left).
        destruct (P z); simpl; rewrite ?Ez; apply IHl;
          intro; apply Hz; now right. }
      destruct (P y); simpl; rewrite ?eqb_refl', Z; trivial.
    + assert (In' : P y = true -> In y ks).
      { intro Hp. destruct (Hin Hp) as [->|]; trivial.
        now rewrite eqb_refl' in E. }
      destruct (P k); simpl; rewrite ?E; now apply IH.
Qed.

Lemma sum_group_sizes (P : A -> bool) :
  forall ks l, NoDup ks ->
  (forall y, In y l -> P y = true -> In y ks) ->
  list_sum (map (fun k => count eqb k l) (filter P ks))
  = List.length (filter P l).
Proof.
  intros ks l Hnd. induction l as [|y l IH]; intro Hin.
  - unfold count. simpl. induction (filter P ks); simpl; auto.
  - assert (E : forall u,
      list_sum (map (fun k => count eqb k (y :: l)) u)
      = list_sum (map (fun k => if eqb k y then 1 else 0) u)
        + list_sum (map (fun k => count eqb k l) u)).
    { induction u as [|k u IHu]; simpl; trivial.
      rewrite IHu. unfold count. simpl.
      destruct (eqb k y); simpl; lia. }
    rewrite E, IH, sum_indicator; trivial.
    + simpl. destruct (P y); simpl; lia.
    + intro Hp. apply Hin; [now left|trivial].
    + intros z Hz. apply Hin. now right.
Qed.

Lemma count_pos : forall l x, In x l <-> 1 <= count eqb x l.
Proof.
  unfold count. induction l as [|y l IH]; intro x; simpl.
  - split; [contradiction|lia].
  - destruct (eqb x y) eqn:E; simpl.
    + apply eqb_spec in E. subst. split; [lia|auto].
    + rewrite <- IH. apply eqb_neq' in E. split; [intros [H|H]|]; auto.
      congruence.
Qed.

End ListFacts.

(** ** Facts about [sort_values] *)

Section SortFacts.
Context {A : Type} (leb : A -> A -> bool).

Import Pandas Measures.

Lemma insert_perm : forall x l, Permutation (x :: l) (insert leb x l).
Proof.
  induction l as [|y l IH]; simpl; [reflexivity|].
  destruct (leb x y); [reflexivity|].
  rewrite perm_swap. now constructor.
Qed.

Lemma sort_values_perm : forall l, Permutation l (sort_values leb l).
Proof.
  induction l as [|x l IH]; simpl; [constructor|].
  rewrite <- insert_perm. now constructor.
Qed.

Lemma sort_values_In : forall l x, In x (sort_values leb l) <-> In x l.
Proof.
  intros l x. split; apply Permutation_in;
    [symmetry|]; apply sort_values_perm.
Qed.

Lemma sort_values_NoDup : forall l, NoDup l -> NoDup (sort_values leb l).
Proof.
  intros l H. eapply Permutation_NoDup; [apply sort_values_perm|exact H].
Qed.

Hypothesis leb_total : forall x y, leb x y = true \/ leb y x = true.
Hypothesis leb_trans :
  forall x y z, leb x y = true -> leb y z = true -> leb x z = true.

Lemma insert_stable (R : A -> A -> Prop) : forall x l,
  Forall (R x) l ->
  StronglySorted (stable_before leb R) l ->
  StronglySorted (stable_before leb R) (insert leb x l).
Proof.
  induction l as [|y l IH]; intros Hx Hl; simpl.
  - repeat constructor.
  - apply StronglySorted_inv in Hl. destruct Hl as [Hl Hy].
    inversion Hx as [|? ? Rxy Hx']; subst.
    rewrite Forall_forall in Hy, Hx'.
    destruct (leb x y) eqn:E.
    + constructor; [constructor; trivial; now apply Forall_forall|].
      constructor; [split; auto|].
      apply Forall_forall. intros z Hz. split; [|intro; now apply Hx'].
      apply leb_trans with y; trivial. now apply Hy.
    + constructor; [apply IH; trivial; now apply Forall_forall|].
      apply Forall_forall. intros z Hz.
      apply (Permutation_in _ (Permutation_sym (insert_perm x l))) in Hz.
      destruct Hz as [<-|Hz]; [|now apply Hy].
      split; [|congruence].
      destruct (leb_total x y); congruence.
Qed.

(** The sort is stable: rows that compare equal stay in the order [R]
    in which the input had them. *)
Lemma sort_values_stable (R : A -> A -> Prop) : forall l,
  StronglySorted R l ->
  StronglySorted (stable_before leb R) (sort_values leb l).
Proof.
  induction 1 as [|a l Hl IH Ha]; simpl; [constructor|].
  apply insert_stable; trivial.
  rewrite Forall_forall in *. intros z Hz.
  apply Ha. apply (proj1 (sort_values_In l z)). exact Hz.
Qed.


End SortFacts.

(** ** The order of strings and of group keys *)

Section StringOrder.
Import Pandas Measures.

Lemma compare_lt_trans : forall a b c,
  String.compare a b = Lt -> String.compare b c = Lt ->
  String.compare a c = Lt.
Proof.
  intros a b c H1 H2.
  apply String_as_OT.cmp_lt in H1, H2. apply String_as_OT.cmp_lt.
  eapply String_as_OT.lt_trans; eassumption.
Qed.

Lemma compare_refl : forall a, String.compare a a = Eq.
Proof. intro a. now apply (String_as_OT.cmp_eq a a). Qed.

Lemma compare_gt_lt : forall a b,
  String.compare a b = Gt <-> String.compare b a = Lt.
Proof.
  intros a b. rewrite (String.compare_antisym b a).
  destruct (String.compare a b); simpl; split; congruence.
Qed.

Lemma string_leb_iff : forall a b,
  String.leb a b = true <-> String.compare a b = Lt \/ a = b.
Proof.
  intros a b. unfold String.leb.
  destruct (String.compare a b) eqn:E.
  - apply String.compare_eq_iff in E. tauto.
  - tauto.
  - split; [discriminate|]. intros [H|H]; [discriminate|].
    subst. rewrite compare_refl in E. discriminate.
Qed.


Lemma compare_lt_irrefl : forall a, String.compare a a <> Lt.
Proof. intro a. rewrite compare_refl. discriminate. Qed.

Lemma key_leb_iff : forall a b,
  key_leb a b = true <-> key_lt a b \/ a = b.
Proof.
  intros [a1 a2] [b1 b2]. unfold key_leb, key_lt. simpl.
  destruct (String.compare a1 b1) eqn:E.
  - apply String.compare_eq_iff in E. subst b1.
    rewrite string_leb_iff. split.
    + intros [H|H]; [left; right; auto|right; congruence].
    + intros [[H|[_ H]]|H]; [discriminate|auto|right; congruence].
  - tauto.
  - split; [discriminate|].
    intros [[H|[H _]]|H]; [discriminate| |].
    + subst. rewrite compare_refl in E. discriminate.
    + inversion H; subst. rewrite compare_refl in E. discriminate.
Qed.

Lemma key_lt_trans : forall a b c, key_lt a b -> key_lt b c -> key_lt a c.
Proof.
  intros [a1 a2] [b1 b2] [c1 c2]. unfold key_lt. simpl.
  intros [H1|[-> H1]] [H2|[-> H2]]; auto.
  - left. eapply compare_lt_trans; eassumption.
  - right. split; trivial. eapply compare_lt_trans; eassumption.
Qed.

Lemma key_lt_irrefl : forall a, ~ key_lt a a.
Proof.
  intros [a1 a2] [H|[_ H]]; simpl in H; now apply compare_lt_irrefl in H.
Qed.

Lemma key_leb_trans : forall a b c,
  key_leb a b = true -> key_leb b c = true -> key_leb a c = true.
Proof.
  intros a b c H1 H2. apply key_leb_iff in H1, H2. apply key_leb_iff.
  destruct H1 as [H1|<-], H2 as [H2|<-]; auto.
  left. eapply key_lt_trans; eassumption.
Qed.

Lemma key_leb_total : forall a b, key_leb a b = true \/ key_leb b a = true.
Proof.
  intros [a1 a2] [b1 b2]. unfold key_leb. simpl.
  rewrite (String.compare_antisym b1 a1).
  destruct (String.compare a1 b1); simpl; auto.
  apply String.leb_total.
Qed.

Lemma key_leb_antisym : forall a b,
  key_leb a b = true -> key_leb b a = true -> a = b.
Proof.
  intros a b H1 H2. apply key_leb_iff in H1, H2.
  destruct H1 as [H1|H1]; trivial. destruct H2 as [H2|H2]; auto.
  destruct (key_lt_irrefl a). eapply key_lt_trans; eassumption.
Qed.

Lemma key_eqb_spec : forall a b, key_eqb a b = true <-> a = b.
Proof.
  intros [a1 a2] [b1 b2]. unfold key_eqb. simpl.
  rewrite andb_true_iff, !String.eqb_eq. split.
  - intros [-> ->]. reflexivity.
  - intro H. inversion H. auto.
Qed.



End StringOrder.

(** ** The season lookup and the loader *)

Import Pandas DashboardFinal Measures Samples.
Local Open Scope string_scope.

Lemma dict_get_seasons_outside : forall m : Z,
  ~ (1 <= m <= 12)%Z -> dict_get seasons m = None.
Proof.
  intros m H. unfold seasons, dict_get.
  repeat match goal with
         | |- context [Z.eqb m ?k] => destruct (Z.eqb_spec m k); [lia|]
         end.
  reflexivity.
Qed.

Lemma season_outside : forall r : TripRow,
  ~ month_in_range (dt_month (csv_started_at r)) ->
  season (add_columns r) = None.
Proof.
  intros [[t|] st] H; simpl in *; trivial.
  apply dict_get_seasons_outside. intro Hm. apply H.
  exists (ts_month t). auto.
Qed.

Lemma load_data_present :
  forall (fs : filesystem) lines stamps daily_lines dates,
  fs trips_path = Some (TripCsv lines) ->
  to_datetime (map line_started_at lines) = inr stamps ->
  fs daily_path = Some (DailyCsv daily_lines) ->
  to_datetime (map line_date daily_lines) = inr dates ->
  load_data fs
  = inr (map add_columns (with_started_at lines stamps),
         with_date daily_lines dates).
Proof.
  intros fs lines stamps daily_lines dates Ht Hs Hd Hp.
  unfold load_data, read_csv.
  rewrite Ht. simpl. rewrite Hs. simpl. rewrite Hd. simpl. rewrite Hp.
  reflexivity.
Qed.

Lemma well_formed_month : forall t : Timestamp,
  well_formed t = true -> (1 <= ts_month t <= 12)%Z.
Proof.
  intros t H. unfold well_formed in H.
  repeat (apply andb_true_iff in H; destruct H as [H ?]).
  apply Z.leb_le in H. lia.
Qed.

Lemma parse_cell_month_outside : forall position t,
  ~ (1 <= ts_month t <= 12)%Z ->
  parse_cell position (DateCell t) = inl (DateParseError position).
Proof.
  intros position t H. unfold parse_cell.
  destruct (well_formed t) eqn:E; trivial.
  now apply well_formed_month in E.
Qed.

(** C3: for a month [m] in 1..12 the lookup in [seasons] returns one of
    the four labels, and exactly the one of the table: 12, 1, 2 give
    Winter; 3, 4, 5 give Spring; 6, 7, 8 give Summer; 9, 10, 11 give
    Fall. *)
Theorem seasons_mapping : forall m : Z,
  (1 <= m <= 12)%Z ->
  (exists s, map_dict seasons (Some m) = Some s /\ In s season_options) /\
  ((m = 12 \/ m = 1 \/ m = 2)%Z <-> map_dict seasons (Some m) = Some "Winter") /\
  ((m = 3 \/ m = 4 \/ m = 5)%Z <-> map_dict seasons (Some m) = Some "Spring") /\
  ((m = 6 \/ m = 7 \/ m = 8)%Z <-> map_dict seasons (Some m) = Some "Summer") /\
  ((m = 9 \/ m = 10 \/ m = 11)%Z <-> map_dict seasons (Some m) = Some "Fall").
Proof.
  intros m H.
  assert (C : (m = 1 \/ m = 2 \/ m = 3 \/ m = 4 \/ m = 5 \/ m = 6 \/ m = 7 \/
               m = 8 \/ m = 9 \/ m = 10 \/ m = 11 \/ m = 12)%Z) by lia.
  repeat (destruct C as [C|C]); subst m; simpl;
    (split; [eexists; split; [reflexivity|simpl; tauto]|]);
    repeat split; intro E; try discriminate E; try lia; try reflexivity.
Qed.

Lemma seasons_mapping_witness :
  (1 <= 7 <= 12)%Z /\ map_dict seasons (Some 7%Z) = Some "Summer".
Proof.
  split; [lia|].
  apply (proj1 (proj1 (proj2 (proj2 (proj2 (seasons_mapping 7 ltac:(lia)))))));
    lia.
Defined.

(** C7, as the specification states it, fails: the lookup of month 0 and
    of month 13 raises nothing; it gives the missing value. *)
Lemma invalid_month_raises_nothing :
  map_dict seasons (Some 0%Z) = None /\
  map_dict seasons (Some 13%Z) = None.
Proof. split; reflexivity. Qed.

(** C7, amended: the lookup of a month outside 1..12 raises nothing and
    gives the missing value (NaN).  Such a month does not reach the lookup
    from a file: [pd.to_datetime] rejects a date whose month is outside
    1..12 with its own error. *)
Theorem invalid_month_gives_missing_season : forall m : Z,
  ~ (1 <= m <= 12)%Z ->
  map_dict seasons (Some m) = None /\
  (forall position y d s,
     parse_cell position (DateCell (mkTimestamp y m d s))
     = inl (DateParseError position)).
Proof.
  intros m H. split.
  - now apply dict_get_seasons_outside.
  - intros. now apply parse_cell_month_outside.
Qed.

Lemma invalid_month_gives_missing_season_witness :
  ~ (1 <= 13 <= 12)%Z /\ map_dict seasons (Some 13%Z) = None.
Proof.
  split; [lia|].
  apply (proj1 (invalid_month_gives_missing_season 13 ltac:(lia))).
Defined.

(** C10: a row whose month is not in 1..12 (the row of an empty
    timestamp cell) gets a missing season without an error; the seasonal
    filter drops it for every selection, so the filtered frame and the
    page are those of the frame without the row; and once the dates of a
    file are parsed, the file loads whatever its months are. *)
Theorem out_of_range_month_dropped : forall r : TripRow,
  ~ month_in_range (dt_month (csv_started_at r)) ->
  season (add_columns r) = None /\
  (forall season_filter df,
     ~ In (add_columns r) (df_filtered df season_filter)) /\
  (forall season_filter df1 df2,
     df_filtered (df1 ++ add_columns r :: df2) season_filter
     = df_filtered (df1 ++ df2) season_filter) /\
  (forall n season_filter df1 df2,
     station_popularity_page_n n (df1 ++ add_columns r :: df2) season_filter
     = station_popularity_page_n n (df1 ++ df2) season_filter) /\
  (forall fs lines stamps daily_lines dates,
     fs trips_path = Some (TripCsv lines) ->
     to_datetime (map line_started_at lines) = inr stamps ->
     fs daily_path = Some (DailyCsv daily_lines) ->
     to_datetime (map line_date daily_lines) = inr dates ->
     load_data fs
     = inr (map add_columns (with_started_at lines stamps),
            with_date daily_lines dates)).
Proof.
  intros r H. pose proof (season_outside r H) as Hs.
  assert (F : forall season_filter df1 df2,
     df_filtered (df1 ++ add_columns r :: df2) season_filter
     = df_filtered (df1 ++ df2) season_filter).
  { intros. unfold df_filtered. rewrite !filter_app. f_equal.
    cbn [filter]. now rewrite Hs. }
  split; [exact Hs|split; [|split; [exact F|split]]].
  - intros sf df Hin. unfold df_filtered in Hin.
    apply filter_In in Hin. destruct Hin as [_ Hin].
    rewrite Hs in Hin. discriminate.
  - intros n sf df1 df2. unfold station_popularity_page_n, df_stacked_data.
    now rewrite F.
  - intros. now apply load_data_present.
Qed.

Lemma out_of_range_month_dropped_witness :
  ~ month_in_range (dt_month (csv_started_at nat_row)) /\
  season (add_columns nat_row) = None.
Proof.
  assert (H : ~ month_in_range (dt_month (csv_started_at nat_row))).
  { intros [z [E Hz]]. simpl in E. discriminate E. }
  split; [exact H|].
  apply (proj1 (out_of_range_month_dropped nat_row H)).
Defined.

(** C8, as the specification states it, fails: with a month 13 in the
    trip file and the daily file missing, [load_data] fails with the error
    of the date, which does not name the missing file. *)
Lemma missing_daily_file_not_named :
  only_trips [month13_line] daily_path = None /\
  load_data (only_trips [month13_line]) = inl (DateParseError 0) /\
  load_data (only_trips [month13_line])
  <> inl (FileNotFoundError daily_path).
Proof.
  split; [reflexivity|split; [reflexivity|discriminate]].
Qed.

(** C8, amended: when the trip file is missing, [load_data] fails with
    [FileNotFoundError], which carries the path; when the daily file is
    missing it does so once the trip file has been read and its dates
    parsed. *)
Theorem load_data_missing_file : forall (fs : filesystem) (path : string),
  fs path = None ->
  (path = trips_path ->
   load_data fs = inl (FileNotFoundError path)) /\
  (path = daily_path ->
   (exists lines stamps,
      fs trips_path = Some (TripCsv lines) /\
      to_datetime (map line_started_at lines) = inr stamps) ->
   load_data fs = inl (FileNotFoundError path)).
Proof.
  intros fs path H. split.
  - intros ->. unfold load_data, read_csv. now rewrite H.
  - intros -> [lines [stamps [Hr Hs]]]. unfold load_data, read_csv.
    rewrite Hr. simpl. rewrite Hs. simpl. now rewrite H.
Qed.

Lemma load_data_missing_file_witness :
  no_files trips_path = None /\
  load_data no_files = inl (FileNotFoundError trips_path).
Proof.
  split; [reflexivity|].
  apply (proj1 (load_data_missing_file no_files trips_path eq_refl)).
  reflexivity.
Defined.

(** The page of the route map names the missing file in the message it
    shows. *)
Lemma route_map_missing : forall fs : filesystem,
  fs map_path = None -> route_map_page fs = inr (StError map_missing_msg).
Proof.
  intros fs H. unfold route_map_page, open_read. now rewrite H.
Qed.

(** C2: with no season selected the page computes no aggregate and adds
    no trace (it shows the warning), whatever the trips and the number of
    stations kept; the aggregation of an empty selection is empty too. *)
Theorem empty_selection_emits_nothing : forall (n : nat) (df : list Trip),
  emitted (station_popularity_page_n n df []) = [] /\
  emitted_traces (station_popularity_page_n n df []) = [] /\
  df_filtered df [] = [] /\
  df_stacked_data n df [] = [].
Proof.
  intros n df.
  assert (F : df_filtered df [] = []).
  { unfold df_filtered. induction df as [|r df IH]; simpl; trivial.
    destruct (season r); simpl; exact IH. }
  repeat split; trivial.
  unfold df_stacked_data. rewrite F. simpl.
  reflexivity.
Qed.

(** ** The aggregation *)

Lemma filter_of_map {A B : Type} (f : A -> B) (p : B -> bool) : forall l,
  filter p (map f l) = map f (filter (fun a => p (f a)) l).
Proof.
  induction l as [|a l IH]; simpl; trivial.
  destruct (p (f a)); simpl; now rewrite IH.
Qed.

Lemma In_dropna {K : Type} : forall (l : list (option K)) k,
  In k (dropna l) <-> In (Some k) l.
Proof.
  induction l as [|[x|] l IH]; intro k; simpl; [tauto| |].
  - rewrite IH. split; intros [H|H]; auto; left; congruence.
  - rewrite IH. split; [auto|]. intros [H|H]; [discriminate|trivial].
Qed.

Lemma trips_at_count : forall s l,
  trips_at s l = count String.eqb s (map start_station_name l).
Proof.
  intros s l. unfold trips_at, count. rewrite filter_of_map, length_map.
  f_equal. apply filter_ext. intro r. apply String.eqb_sym.
Qed.

Lemma trips_in_count : forall s se l,
  trips_in s se l = count key_eqb (s, se) (dropna (map group_key l)).
Proof.
  intros s se l. unfold trips_in, count.
  induction l as [|r l IH]; simpl; trivial.
  unfold group_key at 1, in_season at 1, key_eqb at 1.
  destruct (season r) as [x|]; simpl.
  - rewrite (String.eqb_sym s), (String.eqb_sym se).
    destruct (_ && _); simpl; now rewrite IH.
  - rewrite andb_false_r. exact IH.
Qed.


Lemma group_keys_NoDup : forall keys, NoDup (group_keys keys).
Proof.
  intro keys. apply sort_values_NoDup, NoDup_unique, key_eqb_spec.
Qed.

Lemma group_keys_In : forall keys k,
  In k (group_keys keys) <-> In (Some k) keys.
Proof.
  intros keys k. unfold group_keys.
  rewrite sort_values_In, (In_unique _ key_eqb_spec). apply In_dropna.
Qed.

Lemma group_keys_sorted : forall keys,
  StronglySorted key_lt (group_keys keys).
Proof.
  intro keys. unfold group_keys.
  eapply StronglySorted_weaken.
  - apply (sort_values_stable key_leb key_leb_total key_leb_trans
             (fun a b => a <> b)).
    apply NoDup_StronglySorted_neq, NoDup_unique, key_eqb_spec.
  - intros a b _ _ [H1 H2]. apply key_leb_iff in H1.
    destruct H1 as [H1|H1]; trivial.
    subst b. exfalso. apply H2; trivial.
    apply key_leb_iff. now right.
Qed.

Lemma stacked_rows_eq : forall top,
  stacked_rows top
  = map (fun k => {| agg_station_name := fst k;
                     agg_season := snd k;
                     trip_count := trips_in (fst k) (snd k) top |})
        (group_keys (map group_key top)).
Proof.
  intro top. unfold stacked_rows, groupby_size.
  rewrite map_map. apply map_ext. intros [s se]. simpl.
  now rewrite trips_in_count.
Qed.

Lemma stacked_rows_keys : forall top,
  map agg_key (stacked_rows top) = group_keys (map group_key top).
Proof.
  intro top. rewrite stacked_rows_eq, map_map.
  rewrite <- (map_id (group_keys _)) at 2.
  apply map_ext. now intros [s se].
Qed.

(** The rows of a station add up to the trips of the station that have
    a season. *)
Lemma station_total_stacked_rows : forall s top,
  (forall r, In r top -> season r <> None) ->
  station_total s (stacked_rows top) = trips_at s top.
Proof.
  intros s top Hs. unfold station_total, stacked_rows, groupby_size.
  rewrite map_map, filter_of_map, map_map. simpl.
  rewrite (sum_group_sizes key_eqb key_eqb_spec
             (fun k => String.eqb s (fst k))).
  - rewrite trips_at_count.
    unfold count. rewrite filter_of_map, length_map.
    induction top as [|r top IH]; simpl; trivial.
    assert (Hr : season r <> None) by (apply Hs; now left).
    assert (Ht : forall r', In r' top -> season r' <> None)
      by (intros; apply Hs; now right).
    unfold group_key at 1. destruct (season r); [|congruence]. simpl.
    destruct (String.eqb s (start_station_name r)); simpl; now rewrite IH.
  - apply group_keys_NoDup.
  - intros k Hk _. apply group_keys_In. now apply In_dropna.
Qed.

Lemma isin_Some : forall s values,
  isin (Some s) values = true <-> In s values.
Proof.
  intros s values. simpl. rewrite existsb_exists. split.
  - intros [x [Hx E]]. apply String.eqb_eq in E. now subst.
  - intro H. exists s. split; trivial. apply String.eqb_refl.
Qed.

Lemma df_filtered_season : forall df season_filter r,
  In r (df_filtered df season_filter) ->
  exists se, season r = Some se /\ In se season_filter.
Proof.
  intros df sf r H. apply filter_In in H. destruct H as [_ H].
  destruct (season r) as [se|]; [|discriminate].
  exists se. split; trivial. now apply isin_Some.
Qed.

Lemma df_top_In : forall filtered names r,
  In r (df_top filtered names) <->
  In r filtered /\ In (start_station_name r) names.
Proof.
  intros. unfold df_top. now rewrite filter_In, isin_Some.
Qed.

Lemma trips_at_df_top : forall s filtered names,
  In s names -> trips_at s (df_top filtered names) = trips_at s filtered.
Proof.
  intros s filtered names Hs. rewrite !trips_at_count.
  unfold count, df_top.
  rewrite !filter_of_map, !length_map.
  induction filtered as [|r l IH]; simpl in *; trivial.
  destruct (String.eqb s (start_station_name r)) eqn:E.
  - assert (K : isin (Some (start_station_name r)) names = true)
      by (apply isin_Some; apply String.eqb_eq in E; now rewrite <- E).
    simpl in K. rewrite K. simpl. rewrite E. simpl. now rewrite IH.
  - destruct (existsb _ names); simpl; rewrite ?E; exact IH.
Qed.

Lemma trips_in_df_top : forall s se filtered names,
  In s names ->
  trips_in s se (df_top filtered names) = trips_in s se filtered.
Proof.
  intros s se filtered names Hs. rewrite !trips_in_count.
  unfold count, df_top.
  induction filtered as [|r l IH]; trivial.
  cbn [filter map].
  destruct (isin (Some (start_station_name r)) names) eqn:E.
  - cbn [map]. destruct (group_key r); cbn [dropna filter]; trivial.
    destruct (key_eqb (s, se) p); cbn [List.length]; now rewrite IH.
  - rewrite IH. unfold group_key at 2.
    destruct (season r) as [x|]; cbn [option_map dropna filter]; trivial.
    destruct (key_eqb (s, se) (start_station_name r, x)) eqn:K; trivial.
    apply key_eqb_spec in K. inversion K. subst.
    apply isin_Some in Hs. congruence.
Qed.

Lemma station_total_df_stacked_data : forall n df season_filter s,
  In s (top_station_names n (df_filtered df season_filter)) ->
  station_total s (df_stacked_data n df season_filter)
  = trips_at s (df_filtered df season_filter).
Proof.
  intros n df sf s Hs. unfold df_stacked_data.
  rewrite station_total_stacked_rows, trips_at_df_top; trivial.
  intros r Hr. apply df_top_In in Hr. destruct Hr as [Hr _].
  apply df_filtered_season in Hr. destruct Hr as [se [E _]]. congruence.
Qed.

Lemma emitted_page : forall n df season_filter,
  season_filter <> [] ->
  emitted (station_popularity_page_n n df season_filter)
  = df_stacked_data n df season_filter.
Proof.
  intros n df [|s sf] H; [contradiction|reflexivity].
Qed.

(** C1: for a non-empty selection of seasons and a station among the
    stations kept, the counts of the rows emitted for the station add up
    to the number of filtered trips that start at the station. *)
Theorem station_counts_sum : forall n df season_filter s,
  season_filter <> [] ->
  In s (top_station_names n (df_filtered df season_filter)) ->
  station_total s (emitted (station_popularity_page_n n df season_filter))
  = trips_at s (df_filtered df season_filter).
Proof.
  intros n df sf s Hne Hs. rewrite emitted_page; trivial.
  now apply station_total_df_stacked_data.
Qed.

Lemma station_counts_sum_witness :
  ["Winter"; "Summer"] <> [] /\
  In "A" (top_station_names 20 (df_filtered three_trips ["Winter"; "Summer"])) /\
  station_total "A"
    (emitted (station_popularity_page three_trips ["Winter"; "Summer"]))
  = 2.
Proof.
  assert (H1 : ["Winter"; "Summer"] <> []) by discriminate.
  assert (H2 : In "A" (top_station_names 20
                         (df_filtered three_trips ["Winter"; "Summer"])))
    by (left; reflexivity).
  split; [exact H1|split; [exact H2|]].
  exact (station_counts_sum 20 three_trips ["Winter"; "Summer"] "A" H1 H2).
Defined.

Lemma season_in_range : forall r : TripRow,
  month_in_range (dt_month (csv_started_at r)) ->
  isin (season (add_columns r)) season_options = true.
Proof.
  intros [[t|] st] [z [E Hz]]; simpl in E; [|discriminate].
  injection E as Em. simpl. rewrite Em. clear Em.
  assert (C : (z = 1 \/ z = 2 \/ z = 3 \/ z = 4 \/ z = 5 \/ z = 6 \/ z = 7 \/
               z = 8 \/ z = 9 \/ z = 10 \/ z = 11 \/ z = 12)%Z) by lia.
  repeat (destruct C as [C|C]); subst z; reflexivity.
Qed.

Lemma df_filtered_all : forall (df : list Trip) season_filter,
  (forall r, In r df -> isin (season r) season_filter = true) ->
  df_filtered df season_filter = df.
Proof.
  intros df sf. unfold df_filtered.
  induction df as [|r df IH]; intro H; simpl; trivial.
  rewrite (H r (or_introl eq_refl)), IH; trivial.
  intros r' Hr'. apply H. now right.
Qed.

(** C6, as the specification states it, fails: of the two trips from
    "A", the one without a timestamp has no season; with the four seasons
    selected the rows of "A" add up to 1, the unfiltered count is 2. *)
Lemma all_seasons_miss_trips_without_timestamp :
  In "A" (top_station_names 20
            (df_filtered no_timestamp_trips season_options)) /\
  station_total "A"
    (emitted (station_popularity_page no_timestamp_trips season_options))
  = 1 /\
  trips_at "A" no_timestamp_trips = 2 /\
  station_total "A"
    (emitted (station_popularity_page no_timestamp_trips season_options))
  <> trips_at "A" no_timestamp_trips.
Proof.
  split; [left; reflexivity|].
  split; [reflexivity|split; [reflexivity|discriminate]].
Qed.

(** C6, amended: when every row has a timestamp, and so a month in
    1..12, selecting the four seasons filters nothing out, and for each
    station kept the counts of its rows add up to the number of trips of
    the unfiltered frame that start there. *)
Theorem all_seasons_match_unfiltered : forall (n : nat) (rows : list TripRow),
  (forall r, In r rows -> month_in_range (dt_month (csv_started_at r))) ->
  df_filtered (map add_columns rows) season_options = map add_columns rows /\
  forall s,
    In s (top_station_names n
            (df_filtered (map add_columns rows) season_options)) ->
    station_total s
      (emitted (station_popularity_page_n n (map add_columns rows)
                  season_options))
    = trips_at s (map add_columns rows).
Proof.
  intros n rows H.
  assert (F : df_filtered (map add_columns rows) season_options
              = map add_columns rows).
  { apply df_filtered_all. intros t Ht. apply in_map_iff in Ht.
    destruct Ht as [r [<- Hr]]. now apply season_in_range, H. }
  split; trivial.
  intros s Hs. rewrite emitted_page by discriminate.
  rewrite station_total_df_stacked_data by exact Hs.
  now rewrite F.
Qed.

Lemma all_seasons_match_unfiltered_witness :
  (forall r, In r three_rows -> month_in_range (dt_month (csv_started_at r))) /\
  station_total "A" (emitted (station_popularity_page three_trips season_options))
  = trips_at "A" three_trips.
Proof.
  assert (H : forall r, In r three_rows ->
                month_in_range (dt_month (csv_started_at r))).
  { intros r [<-|[<-|[<-|[]]]]; eexists; (split; [reflexivity|simpl; lia]). }
  split; [exact H|].
  apply (proj2 (all_seasons_match_unfiltered 20 three_rows H) "A").
  left. reflexivity.
Defined.

Lemma group_key_Some : forall (r : Trip) k,
  group_key r = Some k <->
  start_station_name r = fst k /\ season r = Some (snd k).
Proof.
  intros r [s se]. unfold group_key. simpl.
  destruct (season r) as [x|]; simpl; split.
  - intro H. inversion H. auto.
  - intros [-> H]. inversion H. reflexivity.
  - discriminate.
  - intros [_ H]. discriminate.
Qed.

Lemma trips_in_pos : forall s se l,
  1 <= trips_in s se l <-> In (Some (s, se)) (map group_key l).
Proof.
  intros s se l. rewrite trips_in_count.
  rewrite <- (count_pos key_eqb key_eqb_spec). apply In_dropna.
Qed.

(** C9: the rows emitted are exactly one per (station, season) pair
    that has a trip among the filtered trips of the stations kept; each
    carries the number of those trips, which is never 0. *)
Theorem one_row_per_station_season : forall n df season_filter,
  NoDup (map agg_key (df_stacked_data n df season_filter)) /\
  (forall a, In a (df_stacked_data n df season_filter) ->
     1 <= trip_count a /\
     In (agg_station_name a)
        (top_station_names n (df_filtered df season_filter)) /\
     In (agg_season a) season_filter /\
     trip_count a
     = trips_in (agg_station_name a) (agg_season a)
         (df_filtered df season_filter)) /\
  (forall s se,
     In s (top_station_names n (df_filtered df season_filter)) ->
     1 <= trips_in s se (df_filtered df season_filter) ->
     In {| agg_station_name := s; agg_season := se;
           trip_count := trips_in s se (df_filtered df season_filter) |}
        (df_stacked_data n df season_filter)).
Proof.
  intros n df sf. unfold df_stacked_data.
  set (filtered := df_filtered df sf).
  set (names := top_station_names n filtered).
  split; [|split].
  - rewrite stacked_rows_keys. apply group_keys_NoDup.
  - intros a Ha. rewrite stacked_rows_eq in Ha.
    apply in_map_iff in Ha. destruct Ha as [[s se] [<- Hk]]. simpl.
    apply group_keys_In in Hk.
    assert (Hpos := proj2 (trips_in_pos s se _) Hk).
    apply in_map_iff in Hk. destruct Hk as [r [Hr Hin]].
    apply group_key_Some in Hr. simpl in Hr. destruct Hr as [<- Hse].
    apply df_top_In in Hin. destruct Hin as [Hf Hn].
    apply df_filtered_season in Hf. destruct Hf as [x [Hx Hsf]].
    assert (x = se) by congruence. subst x.
    repeat split; trivial.
    now apply trips_in_df_top.
  - intros s se Hs Hpos. rewrite stacked_rows_eq.
    apply in_map_iff. exists (s, se). simpl.
    rewrite trips_in_df_top by exact Hs. split; trivial.
    apply group_keys_In, trips_in_pos.
    now rewrite trips_in_df_top.
Qed.

(** The season labels in the order of strings. *)
Example season_labels_order :
  String.compare "Fall" "Spring" = Lt /\
  String.compare "Spring" "Summer" = Lt /\
  String.compare "Summer" "Winter" = Lt.
Proof. repeat split. Qed.

(** C5, as the specification states it, fails: station "A" with one
    trip comes before station "B" with two, and the Fall row of "B"
    comes before its Winter row. *)
Lemma stacked_rows_not_in_display_order :
  df_stacked_data 20 unordered_trips season_options
  = [ mkStationAggregate "A" "Winter" 1;
      mkStationAggregate "B" "Fall" 1;
      mkStationAggregate "B" "Winter" 1 ] /\
  ~ spec_order (df_filtered unordered_trips season_options)
      (mkStationAggregate "A" "Winter" 1) (mkStationAggregate "B" "Fall" 1) /\
  ~ spec_order (df_filtered unordered_trips season_options)
      (mkStationAggregate "B" "Fall" 1) (mkStationAggregate "B" "Winter" 1) /\
  ~ StronglySorted (spec_order (df_filtered unordered_trips season_options))
      (df_stacked_data 20 unordered_trips season_options).
Proof.
  assert (N1 : ~ spec_order (df_filtered unordered_trips season_options)
      (mkStationAggregate "A" "Winter" 1) (mkStationAggregate "B" "Fall" 1)).
  { unfold spec_order. simpl. vm_compute. lia. }
  assert (N2 : ~ spec_order (df_filtered unordered_trips season_options)
      (mkStationAggregate "B" "Fall" 1) (mkStationAggregate "B" "Winter" 1)).
  { unfold spec_order. simpl. vm_compute. lia. }
  repeat split; trivial.
  change (df_stacked_data 20 unordered_trips season_options)
    with [ mkStationAggregate "A" "Winter" 1;
           mkStationAggregate "B" "Fall" 1;
           mkStationAggregate "B" "Winter" 1 ].
  intro H. apply StronglySorted_inv in H. destruct H as [_ H].
  inversion H. contradiction.
Qed.

Lemma key_lt_same_season : forall a b : string * string,
  key_lt a b -> snd a = snd b -> String.compare (fst a) (fst b) = Lt.
Proof.
  intros [a1 a2] [b1 b2] [H|[_ H]] E; simpl in *; trivial.
  subst. now apply compare_lt_irrefl in H.
Qed.

(** C5, amended: the rows are in the order of the group keys, that is by
    station name and, within a station, by season label, both in the
    order of strings (Fall, Spring, Summer, Winter); the traces of the
    chart are the selected seasons in the order Winter, Spring, Summer,
    Fall, each with its stations by name. *)
Theorem stacked_rows_order : forall n df season_filter,
  StronglySorted (fun a b => key_lt (agg_key a) (agg_key b))
    (df_stacked_data n df season_filter) /\
  map bar_name
    (fig_stacked_bar (df_stacked_data n df season_filter) season_filter)
  = filter (fun s => existsb (String.eqb s) season_filter) season_options /\
  (forall t,
     In t (fig_stacked_bar (df_stacked_data n df season_filter)
             season_filter) ->
     StronglySorted (fun a b => String.compare a b = Lt) (bar_y t)).
Proof.
  intros n df sf.
  assert (S : StronglySorted (fun a b => key_lt (agg_key a) (agg_key b))
                (df_stacked_data n df sf)).
  { unfold df_stacked_data. rewrite stacked_rows_eq.
    apply StronglySorted_map with (f := fun k : string * string => _)
      (R := fun a b => key_lt (agg_key a) (agg_key b)).
    eapply StronglySorted_weaken; [apply group_keys_sorted|].
    intros [a1 a2] [b1 b2] _ _ H. exact H. }
  split; [exact S|split].
  - unfold fig_stacked_bar. rewrite map_map. simpl. apply map_id.
  - intros t Ht. unfold fig_stacked_bar in Ht.
    apply in_map_iff in Ht. destruct Ht as [s [<- _]].
    unfold season_trace. simpl.
    apply StronglySorted_map
      with (R := fun a b : string => String.compare a b = Lt).
    eapply StronglySorted_weaken.
    + apply StronglySorted_filter. exact S.
    + intros a b Ha Hb H. apply filter_In in Ha, Hb.
      destruct Ha as [_ Ha], Hb as [_ Hb].
      apply String.eqb_eq in Ha, Hb.
      apply (key_lt_same_season _ _ H). simpl. congruence.
Qed.

(** ** The ranking of the stations *)

Lemma value_counts_entries : forall col p,
  In p (value_counts col) ->
  In (fst p) col /\ snd p = count String.eqb (fst p) col.
Proof.
  intros col p H. unfold value_counts in H.
  apply (proj1 (sort_values_In _ _ _)) in H.
  apply in_map_iff in H. destruct H as [k [<- Hk]].
  apply (proj1 (In_unique _ String.eqb_eq _ _)) in Hk. simpl. auto.
Qed.

Lemma value_counts_keys : forall col,
  Permutation (map fst (value_counts col)) (unique String.eqb col).
Proof.
  intro col. unfold value_counts.
  rewrite <- sort_values_perm, map_map. simpl. now rewrite map_id.
Qed.






(** ** Sample runs *)

Example winter_top1 :
  df_stacked_data 1 three_trips ["Winter"]
  = [mkStationAggregate "A" "Winter" 2].
Proof. reflexivity. Qed.

Example tie_first_seen :
  map fst (nlargest 2 (value_counts ["B"; "A"; "C"; "A"; "B"])) = ["B"; "A"].
Proof. reflexivity. Qed.

Example traces_in_display_order :
  emitted_traces (station_popularity_page unordered_trips ["Fall"; "Winter"])
  = [ mkBar [1; 1] ["A"; "B"] "Winter"; mkBar [1] ["B"] "Fall" ].
Proof. reflexivity. Qed.

Example missing_timestamp_dropped :
  df_filtered (map add_columns [nat_row; month13_row]) season_options = [].
Proof. reflexivity. Qed.

Example blank_cell_loads :
  load_data (files_with [blank_line "A"; line_on 2022 1 5 "A"])
  = inr (no_timestamp_trips, []).
Proof. reflexivity. Qed.

Example month13_cell_raises :
  load_data (files_with [line_on 2022 1 5 "A"; month13_line])
  = inl (DateParseError 1).
Proof. reflexivity. Qed.

Example daily_file_missing :
  load_data (only_trips three_lines) = inl (FileNotFoundError daily_path) /\
  Dashboard.load_data (only_routes [mkRouteRow "A" 3])
  = inl (FileNotFoundError Dashboard.daily_path).
Proof. split; reflexivity. Qed.

(** ** Further facts about the station page *)

Lemma existsb_same_members : forall (x : string) (l l' : list string),
  (forall s, In s l <-> In s l') ->
  existsb (String.eqb x) l = existsb (String.eqb x) l'.
Proof.
  intros x l l' H.
  destruct (existsb (String.eqb x) l) eqn:E1,
           (existsb (String.eqb x) l') eqn:E2; trivial.
  - apply existsb_exists in E1. destruct E1 as [s [Hs E]].
    assert (E' : existsb (String.eqb x) l' = true)
      by (apply existsb_exists; exists s; split; [now apply H|trivial]).
    congruence.
  - apply existsb_exists in E2. destruct E2 as [s [Hs E]].
    assert (E' : existsb (String.eqb x) l = true)
      by (apply existsb_exists; exists s; split; [now apply H|trivial]).
    congruence.
Qed.

Lemma isin_same_members : forall cell (l l' : list string),
  (forall s, In s l <-> In s l') -> isin cell l = isin cell l'.
Proof.
  intros [x|] l l' H; simpl; trivial. now apply existsb_same_members.
Qed.

(** X1: the page depends on the selection only through the set of the
    selected seasons: the order in which they were picked, and repeats,
    change nothing. *)
Theorem selection_as_a_set : forall n df season_filter season_filter',
  (forall s, In s season_filter <-> In s season_filter') ->
  station_popularity_page_n n df season_filter
  = station_popularity_page_n n df season_filter'.
Proof.
  intros n df sf sf' H.
  assert (F : df_filtered df sf = df_filtered df sf').
  { unfold df_filtered. apply filter_ext. intro r.
    now apply isin_same_members. }
  assert (G : forall stacked,
            fig_stacked_bar stacked sf = fig_stacked_bar stacked sf').
  { intro stacked. unfold fig_stacked_bar. f_equal.
    apply filter_ext. intro s. now apply existsb_same_members. }
  destruct sf as [|x sf], sf' as [|y sf']; trivial.
  - destruct (proj2 (H y)). now left.
  - destruct (proj1 (H x)). now left.
  - unfold station_popularity_page_n, df_stacked_data. now rewrite F, G.
Qed.

Lemma selection_as_a_set_witness :
  (forall s, In s ["Winter"; "Fall"] <-> In s ["Fall"; "Winter"; "Fall"]) /\
  station_popularity_page unordered_trips ["Winter"; "Fall"]
  = station_popularity_page unordered_trips ["Fall"; "Winter"; "Fall"].
Proof.
  assert (H : forall s, In s ["Winter"; "Fall"]
                        <-> In s ["Fall"; "Winter"; "Fall"])
    by (intro s; simpl; tauto).
  split; [exact H|].
  exact (selection_as_a_set 20 unordered_trips _ _ H).
Defined.

Lemma isin_app : forall cell (l1 l2 : list string),
  isin cell (l1 ++ l2) = isin cell l1 || isin cell l2.
Proof.
  intros [x|] l1 l2; simpl; trivial. apply existsb_app.
Qed.

(** X2: the number of rides shown for two selections that share no
    season is the sum of the numbers shown for each. *)
Theorem total_rides_additive : forall (df : list Trip) (sf1 sf2 : list string),
  (forall s, In s sf1 -> ~ In s sf2) ->
  List.length (df_filtered df (sf1 ++ sf2))
  = List.length (df_filtered df sf1) + List.length (df_filtered df sf2).
Proof.
  intros df sf1 sf2 H. unfold df_filtered.
  induction df as [|r df IH]; simpl; trivial.
  rewrite isin_app.
  destruct (isin (season r) sf1) eqn:E1, (isin (season r) sf2) eqn:E2;
    simpl; rewrite IH; try lia.
  destruct (season r) as [x|]; [|discriminate].
  apply isin_Some in E1, E2. now destruct (H x).
Qed.

Lemma total_rides_additive_witness :
  (forall s, In s ["Winter"] -> ~ In s ["Summer"]) /\
  List.length (df_filtered three_trips (["Winter"] ++ ["Summer"])) = 2 + 1.
Proof.
  assert (H : forall s, In s ["Winter"] -> ~ In s ["Summer"]).
  { intros s [<-|[]] [E|[]]. discriminate E. }
  split; [exact H|].
  exact (total_rides_additive three_trips ["Winter"] ["Summer"] H).
Defined.

Lemma month_ok_spec : forall r : TripRow,
  Totals.month_ok r = true <-> month_in_range (dt_month (csv_started_at r)).
Proof.
  intros [[t|] st]; unfold Totals.month_ok, month_in_range; simpl.
  - rewrite andb_true_iff, !Z.leb_le. split.
    + intro H. exists (ts_month t). auto.
    + intros [z [E H]]. injection E as ->. exact H.
  - split; [discriminate|]. intros [z [E _]]. discriminate.
Qed.

(** X3: selecting the four seasons keeps exactly the rows whose month
    is one of 1..12, in the order of the file; a row with another month or
    without a timestamp is the only kind that is dropped. *)
Theorem all_seasons_keep_valid_months : forall rows : list TripRow,
  df_filtered (map add_columns rows) season_options
  = map add_columns (filter Totals.month_ok rows).
Proof.
  intro rows. unfold df_filtered. rewrite filter_of_map. f_equal.
  apply filter_ext. intro r.
  destruct (Totals.month_ok r) eqn:E.
  - now apply season_in_range, month_ok_spec.
  - rewrite season_outside; trivial.
    intro H. apply month_ok_spec in H. congruence.
Qed.

Lemma df_stacked_data_In : forall n df season_filter a,
  In a (df_stacked_data n df season_filter) <->
  In (agg_station_name a)
     (top_station_names n (df_filtered df season_filter)) /\
  1 <= trip_count a /\
  trip_count a
  = trips_in (agg_station_name a) (agg_season a)
      (df_filtered df season_filter).
Proof.
  intros n df sf a. unfold df_stacked_data.
  set (filtered := df_filtered df sf).
  set (names := top_station_names n filtered).
  rewrite stacked_rows_eq. split.
  - intro Ha. apply in_map_iff in Ha. destruct Ha as [[s se] [<- Hk]]. simpl.
    apply group_keys_In in Hk.
    assert (Hpos := proj2 (trips_in_pos s se _) Hk).
    apply in_map_iff in Hk. destruct Hk as [r [Hr Hin]].
    apply group_key_Some in Hr. simpl in Hr. destruct Hr as [<- Hse].
    apply df_top_In in Hin. destruct Hin as [_ Hn].
    rewrite trips_in_df_top in * by exact Hn. auto.
  - destruct a as [s se c]. simpl. intros (Hs & Hpos & ->).
    apply in_map_iff. exists (s, se). simpl.
    rewrite trips_in_df_top by exact Hs. split; trivial.
    apply group_keys_In, trips_in_pos. now rewrite trips_in_df_top.
Qed.

Lemma trips_in_selected : forall s se df season_filter,
  1 <= trips_in s se (df_filtered df season_filter) -> In se season_filter.
Proof.
  intros s se df sf H. apply trips_in_pos, in_map_iff in H.
  destruct H as [r [Hr Hin]]. apply group_key_Some in Hr.
  destruct Hr as [_ Hse]. simpl in Hse.
  apply df_filtered_season in Hin. destruct Hin as [x [Hx Hsf]].
  congruence.
Qed.

Lemma top_station_names_length : forall n filtered,
  List.length (top_station_names n filtered) <= n.
Proof.
  intros n filtered. unfold top_station_names, nlargest.
  rewrite length_map. apply firstn_le_length.
Qed.

(** X4: the table of the chart has at most [n] rows per selected
    season: at most [n] times the number of selected seasons. *)
Theorem stacked_rows_bound : forall n df season_filter,
  List.length (df_stacked_data n df season_filter)
  <= n * List.length season_filter.
Proof.
  intros n df sf.
  set (names := top_station_names n (df_filtered df sf)).
  rewrite <- (length_map agg_key).
  apply Nat.le_trans with (List.length (list_prod names sf)).
  - apply NoDup_incl_length.
    + unfold df_stacked_data. rewrite stacked_rows_keys.
      apply group_keys_NoDup.
    + intros k Hk. apply in_map_iff in Hk. destruct Hk as [a [<- Ha]].
      apply df_stacked_data_In in Ha. destruct Ha as (Hs & Hpos & Hc).
      apply in_prod; trivial.
      apply (trips_in_selected (agg_station_name a) _ df). now rewrite <- Hc.
  - rewrite length_prod. apply Nat.mul_le_mono_r.
    apply top_station_names_length.
Qed.

Lemma filter_all {A : Type} (p : A -> bool) : forall l,
  (forall x, In x l -> p x = true) -> filter p l = l.
Proof.
  induction l as [|a l IH]; intro H; simpl; trivial.
  rewrite (H a (or_introl eq_refl)), IH; trivial.
  intros x Hx. apply H. now right.
Qed.

Lemma stacked_rows_sum : forall top,
  (forall r, In r top -> season r <> None) ->
  list_sum (map trip_count (stacked_rows top)) = List.length top.
Proof.
  intros top Hs. unfold stacked_rows, groupby_size.
  rewrite !map_map. simpl.
  rewrite <- (filter_all (fun _ => true) (group_keys (map group_key top)))
    by trivial.
  rewrite (sum_group_sizes key_eqb key_eqb_spec (fun _ => true)).
  - rewrite filter_all by trivial.
    induction top as [|r top IH]; simpl; trivial.
    assert (Hr : season r <> None) by (apply Hs; now left).
    unfold group_key at 1. destruct (season r); [|congruence]. simpl.
    rewrite IH; trivial. intros r' Hr'. apply Hs. now right.
  - apply group_keys_NoDup.
  - intros k Hk _. apply group_keys_In. now apply In_dropna.
Qed.

Lemma value_counts_length : forall col,
  List.length (value_counts col) = List.length (unique String.eqb col).
Proof.
  intro col. rewrite <- (length_map fst).
  apply Permutation_length, value_counts_keys.
Qed.

(** X5: the counts of the table add up to the number of filtered trips
    that start at a kept station, which is at most the number of rides of
    the metric. *)
Theorem chart_total_and_metric : forall n df season_filter,
  list_sum (map trip_count (df_stacked_data n df season_filter))
  = List.length
      (df_top (df_filtered df season_filter)
         (top_station_names n (df_filtered df season_filter))) /\
  list_sum (map trip_count (df_stacked_data n df season_filter))
  <= List.length (df_filtered df season_filter).
Proof.
  intros n df sf. unfold df_stacked_data.
  set (filtered := df_filtered df sf).
  set (names := top_station_names n filtered).
  assert (E : list_sum (map trip_count (stacked_rows (df_top filtered names)))
              = List.length (df_top filtered names)).
  { apply stacked_rows_sum. intros r Hr. apply df_top_In in Hr.
    destruct Hr as [Hr _]. apply df_filtered_season in Hr.
    destruct Hr as [se [Hse _]]. congruence. }
  rewrite E. split; [reflexivity|].
  unfold df_top. apply filter_length_le.
Qed.

Lemma list_sum_flat_map {A : Type} (f : A -> list nat) : forall l,
  list_sum (flat_map f l) = list_sum (map (fun a => list_sum (f a)) l).
Proof.
  induction l as [|a l IH]; simpl; trivial.
  now rewrite list_sum_app, IH.
Qed.

Lemma sum_one_label (x : string) (c : nat) : forall labels,
  NoDup labels ->
  list_sum (map (fun s => if String.eqb x s then c else 0) labels)
  = if existsb (String.eqb x) labels then c else 0.
Proof.
  induction 1 as [|s labels Hs Hl IH]; simpl; trivial.
  rewrite IH. destruct (String.eqb x s) eqn:E; simpl; trivial.
  apply String.eqb_eq in E. subst s.
  destruct (existsb (String.eqb x) labels) eqn:E'; [|lia].
  apply existsb_exists in E'. destruct E' as [y [Hy E']].
  apply String.eqb_eq in E'. subst y. contradiction.
Qed.

Lemma list_sum_cons : forall (x : nat) l, list_sum (x :: l) = x + list_sum l.
Proof. reflexivity. Qed.

Lemma traces_sum_step : forall (a : StationAggregate) rows labels,
  NoDup labels ->
  list_sum
    (map (fun s => list_sum (map trip_count
                     (filter (fun r => String.eqb (agg_season r) s)
                        (a :: rows)))) labels)
  = (if existsb (String.eqb (agg_season a)) labels then trip_count a else 0)
    + list_sum
        (map (fun s => list_sum (map trip_count
                         (filter (fun r => String.eqb (agg_season r) s)
                            rows))) labels).
Proof.
  intros a rows labels Hl. rewrite <- (sum_one_label _ _ _ Hl).
  clear Hl. induction labels as [|s labels IH]; trivial.
  rewrite !map_cons, !list_sum_cons, IH. cbn [filter].
  destruct (String.eqb (agg_season a) s); simpl; lia.
Qed.

Lemma traces_sum : forall (rows : list StationAggregate) labels,
  NoDup labels ->
  (forall a, In a rows -> In (agg_season a) labels) ->
  list_sum (flat_map bar_x (map (season_trace rows) labels))
  = list_sum (map trip_count rows).
Proof.
  intros rows labels Hl. rewrite list_sum_flat_map, map_map.
  unfold season_trace. cbn [bar_x].
  induction rows as [|a rows IH]; intro H.
  - clear. induction labels; simpl; auto.
  - rewrite traces_sum_step, IH by (trivial; intros; apply H; now right).
    assert (Ha : existsb (String.eqb (agg_season a)) labels = true).
    { apply existsb_exists. exists (agg_season a).
      split; [apply H; now left|apply String.eqb_refl]. }
    now rewrite Ha.
Qed.

Lemma season_options_NoDup : NoDup season_options.
Proof.
  unfold season_options.
  repeat constructor; simpl; intuition discriminate.
Qed.

(** X6: when the selected seasons are among the four options, as the
    multiselect of the sidebar has them, every row of the table is drawn
    in one trace: the bars of all traces add up to the counts of the
    table, and in each trace the bars and their stations match in
    number. *)
Theorem traces_conserve_counts : forall n df season_filter,
  (forall s, In s season_filter -> In s season_options) ->
  list_sum
    (flat_map bar_x
       (fig_stacked_bar (df_stacked_data n df season_filter) season_filter))
  = list_sum (map trip_count (df_stacked_data n df season_filter)) /\
  (forall t,
     In t (fig_stacked_bar (df_stacked_data n df season_filter)
             season_filter) ->
     List.length (bar_x t) = List.length (bar_y t)).
Proof.
  intros n df sf H. split.
  - unfold fig_stacked_bar. apply traces_sum.
    + apply NoDup_filter, season_options_NoDup.
    + intros a Ha. apply df_stacked_data_In in Ha.
      destruct Ha as (_ & Hpos & Hc). rewrite Hc in Hpos.
      apply trips_in_selected in Hpos.
      apply filter_In. split; [now apply H|].
      apply existsb_exists. exists (agg_season a).
      split; [trivial|apply String.eqb_refl].
  - intros t Ht. unfold fig_stacked_bar in Ht.
    apply in_map_iff in Ht. destruct Ht as [s [<- _]].
    unfold season_trace. simpl. now rewrite !length_map.
Qed.

Lemma traces_conserve_counts_witness :
  (forall s, In s ["Fall"; "Winter"] -> In s season_options) /\
  list_sum
    (flat_map bar_x
       (fig_stacked_bar (df_stacked_data 20 unordered_trips ["Fall"; "Winter"])
          ["Fall"; "Winter"]))
  = 3.
Proof.
  assert (H : forall s, In s ["Fall"; "Winter"] -> In s season_options)
    by (intros s [<-|[<-|[]]]; simpl; tauto).
  split; [exact H|].
  exact (proj1 (traces_conserve_counts 20 unordered_trips _ H)).
Defined.

Lemma combine_of_maps {A B C : Type} (f : A -> B) (g : A -> C) : forall l,
  combine (map f l) (map g l) = map (fun a => (f a, g a)) l.
Proof.
  induction l as [|a l IH]; simpl; trivial. now rewrite IH.
Qed.

(** X7: a bar of [c] trips for station [st] is drawn in the trace of
    season [s] exactly when [s] is an option that is selected, [st] is
    one of the stations kept, and [c], which is not 0, is the number of
    filtered trips from [st] in season [s]. *)
Theorem bar_iff_trips : forall n df season_filter st s c,
  (exists t,
     In t (fig_stacked_bar (df_stacked_data n df season_filter)
             season_filter) /\
     bar_name t = s /\
     In (st, c) (combine (bar_y t) (bar_x t)))
  <->
  (In s season_options /\ In s season_filter /\
   In st (top_station_names n (df_filtered df season_filter)) /\
   1 <= c /\
   c = trips_in st s (df_filtered df season_filter)).
Proof.
  intros n df sf st s c. unfold fig_stacked_bar. split.
  - intros [t [Ht [Hn Hb]]].
    apply in_map_iff in Ht. destruct Ht as [s' [<- Hs']].
    simpl in Hn. subst s'. apply filter_In in Hs'. destruct Hs' as [Ho Hf].
    apply existsb_exists in Hf. destruct Hf as [x [Hx E]].
    apply String.eqb_eq in E. subst x.
    unfold season_trace in Hb. simpl in Hb.
    rewrite combine_of_maps in Hb. apply in_map_iff in Hb.
    destruct Hb as [a [E Ha]]. injection E as <- <-.
    apply filter_In in Ha. destruct Ha as [Ha Hse].
    apply String.eqb_eq in Hse. subst s.
    apply df_stacked_data_In in Ha. tauto.
  - intros (Ho & Hf & Hst & Hc & E).
    exists (season_trace (df_stacked_data n df sf) s). split; [|split].
    + apply in_map, filter_In. split; trivial.
      apply existsb_exists. exists s. split; [trivial|apply String.eqb_refl].
    + reflexivity.
    + unfold season_trace. simpl. rewrite combine_of_maps.
      apply in_map_iff. exists (mkStationAggregate st s c). split; trivial.
      apply filter_In. simpl. split; [|apply String.eqb_refl].
      apply df_stacked_data_In. simpl. auto.
Qed.

Lemma top_station_names_seen : forall n filtered s,
  In s (top_station_names n filtered) ->
  In s (map start_station_name filtered).
Proof.
  intros n filtered s H. unfold top_station_names, nlargest in H.
  apply in_map_iff in H. destruct H as [p [<- Hp]].
  apply value_counts_entries.
  apply (proj1 (sort_values_In count_geb _ _)).
  rewrite <- (firstn_skipn n (sort_values _ _)). apply in_or_app. now left.
Qed.

(** X14: the stations that have a row in the table, and so a bar on
    the chart, are exactly the stations kept, and there are as many of
    them as the filtered trips have distinct start stations, up to
    [n]. *)
Theorem chart_stations_are_the_kept : forall n df season_filter,
  (forall s,
     In s (map agg_station_name (df_stacked_data n df season_filter)) <->
     In s (top_station_names n (df_filtered df season_filter))) /\
  List.length (top_station_names n (df_filtered df season_filter))
  = Nat.min n
      (List.length
         (unique String.eqb
            (map start_station_name (df_filtered df season_filter)))).
Proof.
  intros n df sf. split.
  - intro s. split.
    + intro H. apply in_map_iff in H. destruct H as [a [<- Ha]].
      now apply df_stacked_data_In in Ha.
    + intro H. pose proof (top_station_names_seen _ _ _ H) as Hs.
      apply in_map_iff in Hs. destruct Hs as [r [Hr Hin]].
      destruct (df_filtered_season _ _ _ Hin) as [se [Hse _]].
      assert (Hpos : 1 <= trips_in s se (df_filtered df sf)).
      { apply trips_in_pos, in_map_iff. exists r. split; trivial.
        apply group_key_Some. simpl. auto. }
      apply in_map_iff.
      exists (mkStationAggregate s se (trips_in s se (df_filtered df sf))).
      split; trivial. apply df_stacked_data_In. simpl. auto.
  - unfold top_station_names, nlargest.
    rewrite length_map, length_firstn. f_equal.
    rewrite <- (Permutation_length (sort_values_perm count_geb _)).
    apply value_counts_length.
Qed.

(** ** The table of the busiest stations of [dashboard.py] *)









Example busiest_stations_sample :
  Dashboard.load_data Totals.routes_files
  = inr ([("A", 5%Z); ("B", 5%Z); ("C", 1%Z)], []).
Proof. reflexivity. Qed.

Example header_only_routes_raise :
  Dashboard.load_data (only_routes [])
  = inl (TypeError Dashboard.nlargest_type_error).
Proof. reflexivity. Qed.

(** ** The frame that [load_data] returns *)

Lemma to_datetime_at_cells : forall cells position stamps,
  to_datetime_at position cells = inr stamps ->
  Forall2
    (fun c t =>
       match t with
       | None => c = EmptyCell
       | Some x => c = DateCell x /\ well_formed x = true
       end)
    cells stamps.
Proof.
  induction cells as [|c cells IH]; intros position stamps H; simpl in H.
  - injection H as <-. constructor.
  - destruct (parse_cell position c) as [e|t] eqn:Ec; [discriminate|].
    destruct (to_datetime_at (S position) cells) as [e|ts] eqn:Er;
      [discriminate|].
    injection H as <-. constructor; [|now apply (IH (S position))].
    unfold parse_cell in Ec. destruct c as [|x|text].
    + now injection Ec as <-.
    + destruct (well_formed x) eqn:Ew; [|discriminate].
      destruct (in_bounds x); [|discriminate].
      injection Ec as <-. auto.
    + discriminate.
Qed.

Lemma season_of_month : forall r : TripRow,
  month_in_range (dt_month (csv_started_at r)) ->
  exists s, season (add_columns r) = Some s /\ In s season_options.
Proof.
  intros r H. apply season_in_range in H.
  destruct (season (add_columns r)) as [s|]; [|discriminate].
  exists s. split; trivial. now apply isin_Some.
Qed.

Lemma parsed_lines_loaded : forall lines stamps,
  Forall2
    (fun c t =>
       match t with
       | None => c = EmptyCell
       | Some x => c = DateCell x /\ well_formed x = true
       end)
    (map line_started_at lines) stamps ->
  Forall2 Totals.loaded_from lines (map add_columns (with_started_at lines stamps)).
Proof.
  induction lines as [|l lines IH]; intros stamps H;
    inversion H as [|c t cs ts Hc Hr]; subst; simpl; constructor.
  - unfold Totals.loaded_from. split; [reflexivity|].
    destruct t as [x|].
    + destruct Hc as [-> Hw]. apply well_formed_month in Hw.
      split; [reflexivity|split; [exact Hw|]].
      apply (season_of_month (mkTripRow (Some x) (line_start_station_name l))).
      exists (ts_month x). auto.
    + rewrite Hc. split; reflexivity.
  - now apply IH.
Qed.

(** X9: when [load_data] of [dashboard_final.py] succeeds, the frame has
    one trip per line of the trip file, in the order of the file and with
    the station of the line; the trip of an empty timestamp cell has no
    month and no season, and every other trip has a month in 1..12 and
    one of the four season labels. *)
Theorem loaded_frame_invariant : forall (fs : filesystem) df df_daily,
  load_data fs = inr (df, df_daily) ->
  exists lines,
    fs trips_path = Some (TripCsv lines) /\
    Forall2 Totals.loaded_from lines df.
Proof.
  intros fs df df_daily. unfold load_data, read_csv.
  destruct (fs trips_path) as [[lines| | |]|]; simpl; try discriminate.
  destruct (to_datetime (map line_started_at lines)) as [e|stamps] eqn:Es;
    simpl; [discriminate|].
  destruct (fs daily_path) as [[| |daily_lines|]|]; simpl; try discriminate.
  destruct (to_datetime (map line_date daily_lines)) as [e|dates];
    simpl; [discriminate|].
  intro E. injection E as <- _. exists lines. split; trivial.
  apply parsed_lines_loaded. now apply (to_datetime_at_cells _ 0).
Qed.

Lemma loaded_frame_invariant_witness :
  load_data (files_with [blank_line "A"; line_on 2022 1 5 "A"])
  = inr (no_timestamp_trips, []) /\
  exists lines,
    files_with [blank_line "A"; line_on 2022 1 5 "A"] trips_path
    = Some (TripCsv lines) /\
    Forall2 Totals.loaded_from lines no_timestamp_trips.
Proof.
  split; [reflexivity|].
  exact (loaded_frame_invariant
           (files_with [blank_line "A"; line_on 2022 1 5 "A"])
           no_timestamp_trips [] eq_refl).
Defined.
